(** * Transaction Management API: the trade store and its HTTP handlers

    A shallow embedding of [app.py]: the [TradeManager] static methods and
    the five Flask views on [/api/trades], with the theorems that settle the
    testable properties of the specification.

    Layout: JSON values and Python's operations on them; the world a request
    runs in (the [trades] directory, the clock, the identifier generator);
    a state-and-exception monad; [TradeManager]; the views; theorems. *)

From stdpp Require Import gmap strings list fin_maps pretty.

Open Scope string_scope.

(** ** Decoded JSON values

    What [json.load] and [request.get_json()] return.  A Python [dict] is a
    finite map on its keys; [None] is [JNull]; a float is kept as its 64-bit
    pattern, since the program only ever tests it for zero. *)

#[local] Unset Elimination Schemes.
Inductive json : Type :=
| JNull
| JBool (b : bool)
| JInt (z : Z)
| JFloat (bits : Z)
| JStr (s : string)
| JArr (l : list json)
| JObj (m : gmap string json).
#[local] Set Elimination Schemes.

(** The two floating-point zeros, [0.0] and [-0.0]. *)
Definition float_is_zero (bits : Z) : bool :=
  (bits =? 0)%Z || (bits =? 2 ^ 63)%Z.

(** Python truth value: [bool(v)], the negation of [not v]. *)
Definition truthy (v : json) : bool :=
  match v with
  | JNull => false
  | JBool b => b
  | JInt z => negb (z =? 0)%Z
  | JFloat bits => negb (float_is_zero bits)
  | JStr s => negb (String.eqb s "")
  | JArr l => negb (Nat.eqb (length l) 0)
  | JObj m => negb (Nat.eqb (size m) 0)
  end.

(** ** Exceptions and results *)

Inductive exn : Type :=
| JSONDecodeError       (* json.load on text that is not JSON *)
| BadRequest            (* werkzeug: get_json() could not decode the body *)
| UnsupportedMediaType  (* werkzeug: get_json() on a non-JSON content type *)
| TypeError
| AttributeError.

Inductive res (A : Type) : Type :=
| Ok (a : A)
| Raise (e : exn).
Arguments Ok {A} a.
Arguments Raise {A} e.

(** ** Python operations on a decoded value *)

(** [s.endswith(suf)]. *)
Fixpoint endswith (suf s : string) : bool :=
  if String.eqb s suf then true
  else match s with
       | EmptyString => false
       | String _ s' => endswith suf s'
       end.

(** [k in s] for two strings: [k] occurs in [s]. *)
Fixpoint str_contains (k s : string) : bool :=
  if String.prefix k s then true
  else match s with
       | EmptyString => false
       | String _ s' => str_contains k s'
       end.

(** [x == k] for a decoded value [x] and a string [k]. *)
Definition eq_str (k : string) (x : json) : bool :=
  match x with
  | JStr s => String.eqb s k
  | _ => false
  end.

(** [k in d]: key membership for a dict, element membership for a list,
    substring for a string, [TypeError] for anything else. *)
Definition contains (d : json) (k : string) : res bool :=
  match d with
  | JObj m => Ok (bool_decide (is_Some (m !! k)))
  | JArr l => Ok (existsb (eq_str k) l)
  | JStr s => Ok (str_contains k s)
  | JNull | JBool _ | JInt _ | JFloat _ => Raise TypeError
  end.

(** [d.get(k)]: only a dict has the method. *)
Definition dict_get (d : json) (k : string) : res json :=
  match d with
  | JObj m => Ok (default JNull (m !! k))
  | _ => Raise AttributeError
  end.

(** [d[k] = v] with a string key: only a dict accepts it. *)
Definition setitem (d : json) (k : string) (v : json) : res json :=
  match d with
  | JObj m => Ok (JObj (<[k := v]> m))
  | _ => Raise TypeError
  end.

(** A dict display [{k1: v1, ...}]. *)
Definition dict (l : list (string * json)) : json := JObj (list_to_map l).

(** ** The world a request runs in

    The [trades] directory is flat: a finite map from file name to content.
    A file is represented by what [json.load] makes of it: the decoded value,
    or [Corrupt] when decoding raises.  [json.dump] followed by [json.load]
    is the identity on decoded values.  The medium accepts every write.
    [os.path.join(TRADES_DIR, name)] addresses the entry [name]; this is exact
    when the identifier is a single path component, as the ones made by
    [uuid4] and the ones Flask routes as [<trade_id>] are. *)

Inductive unit_content : Type :=
| Parsed (v : json)
| Corrupt.

Record world : Type := World {
  files : gmap string unit_content;
  clock : nat;   (* readings of datetime.now() taken so far *)
  rng : nat      (* identifiers drawn from uuid4() so far *)
}.

(** Text produced by the Python runtime that the source does not determine. *)
Record runtime : Type := Runtime {
  isoformat : nat -> string;     (* datetime.now().isoformat(), n-th reading *)
  uuid4 : nat -> string;         (* str(uuid.uuid4()), n-th draw *)
  repr : json -> string;         (* str(v) of a decoded value, not a str *)
  exn_str : exn -> string;       (* str(e) *)
  legacy_get_json : bool         (* Flask < 2.1: get_json() is None, not 415,
                                    on a non-JSON content type *)
}.

(** ** State and exceptions *)

Definition M (A : Type) : Type := world -> res A * world.

Definition ret {A} (a : A) : M A := fun w => (Ok a, w).
Definition raise {A} (e : exn) : M A := fun w => (Raise e, w).
Definition bind {A B} (m : M A) (k : A -> M B) : M B :=
  fun w => match m w with
           | (Ok a, w') => k a w'
           | (Raise e, w') => (Raise e, w')
           end.
Definition lift {A} (r : res A) : M A := fun w => (r, w).

Declare Scope py_scope.
Delimit Scope py_scope with py.
Notation "x <- m ;; k" := (bind m (fun x => k))
  (at level 100, m at next level, right associativity) : py_scope.

(** [for x in l] collecting the [x] that pass a test which may raise. *)
Fixpoint filterM {A} (p : A -> res bool) (l : list A) : res (list A) :=
  match l with
  | [] => Ok []
  | x :: l' =>
      match p x with
      | Raise e => Raise e
      | Ok b =>
          match filterM p l' with
          | Raise e => Raise e
          | Ok r => Ok (if b then x :: r else r)
          end
      end
  end.

(** [for x in l: out.append(f(x))], stopping at the first exception. *)
Fixpoint mapM {A B} (f : A -> res B) (l : list A) : res (list B) :=
  match l with
  | [] => Ok []
  | x :: l' =>
      match f x with
      | Raise e => Raise e
      | Ok y =>
          match mapM f l' with
          | Raise e => Raise e
          | Ok r => Ok (y :: r)
          end
      end
  end.

(** [f"{trade_id}"]. *)
Definition py_str (rt : runtime) (v : json) : string :=
  match v with
  | JStr s => s
  | _ => repr rt v
  end.

(** [f"{trade_id}.json"], the name of a record's file. *)
Definition unit_name (trade_id : string) : string := trade_id +:+ ".json".

(** ** Runtime services *)

Section Services.
Context (rt : runtime).

(** [datetime.now().isoformat()] *)
Definition now : M string :=
  fun w => (Ok (isoformat rt (clock w)),
            World (files w) (S (clock w)) (rng w)).

(** [str(uuid.uuid4())] *)
Definition new_uuid : M string :=
  fun w => (Ok (uuid4 rt (rng w)),
            World (files w) (clock w) (S (rng w))).

(** [with open(file_path, 'w') as f: json.dump(trade_data, f, indent=2)] *)
Definition write_unit (name : string) (v : json) : M unit :=
  fun w => (Ok tt, World (<[name := Parsed v]> (files w)) (clock w) (rng w)).

(** [os.path.exists(file_path)] *)
Definition path_exists (name : string) : M bool :=
  fun w => (Ok (bool_decide (is_Some (files w !! name))), w).

(** [os.remove(file_path)], reached only when the file exists. *)
Definition os_remove (name : string) : M unit :=
  fun w => (Ok tt, World (delete name (files w)) (clock w) (rng w)).

End Services.

(** ** [class TradeManager] *)

Module TradeManager.
Section Store.
Context (rt : runtime).

(** [save_trade(trade_data)].  The dict is updated in place; the result
    pairs the returned identifier with the dict as the caller sees it
    afterwards. *)
Definition save_trade (trade_data : json) : M (json * json) :=
  (trade_id <- lift (dict_get trade_data "trade_id") ;;
   named <-
      (if negb (truthy trade_id) then
         u <- new_uuid rt ;;
         trade_data <- lift (setitem trade_data "trade_id" (JStr u)) ;;
         ret (JStr u, trade_data)
       else ret (trade_id, trade_data)) ;;
   let '(trade_id, trade_data) := named in
   has_ts <- lift (contains trade_data "timestamp") ;;
   trade_data <-
      (if negb has_ts then
         t <- now rt ;;
         lift (setitem trade_data "timestamp" (JStr t))
       else ret trade_data) ;;
   _ <- write_unit (unit_name (py_str rt trade_id)) trade_data ;;
   ret (trade_id, trade_data))%py.

(** [get_trade(trade_id)]: the decoded file, or [None]. *)
Definition get_trade (trade_id : string) : M json :=
  fun w => match files w !! unit_name trade_id with
           | Some (Parsed v) => (Ok v, w)
           | Some Corrupt => (Raise JSONDecodeError, w)
           | None => (Ok JNull, w)
           end.

(** [json.load(f)] *)
Definition load_unit (c : unit_content) : res json :=
  match c with
  | Parsed v => Ok v
  | Corrupt => Raise JSONDecodeError
  end.

(** The [*.json] entries of the directory, in [os.listdir] order.  The
    directory itself is there: it is made when the module is imported. *)
Definition listing (w : world) : list (string * unit_content) :=
  filter (fun e => endswith ".json" (fst e) = true) (map_to_list (files w)).

(** [get_all_trades()] *)
Definition get_all_trades : M (list json) :=
  fun w => (mapM (fun e => load_unit (snd e)) (listing w), w).

End Store.
End TradeManager.

(** ** The Flask views *)

(** The body of a request as [request.get_json()] sees it. *)
Inductive raw_body : Type :=
| Json (v : json)   (* JSON content type, text that decodes to [v] *)
| Garbled           (* JSON content type, text that does not decode *)
| NotJson.          (* no body, or a content type that is not JSON *)

(** [jsonify(...), code] *)
Record response : Type := Response {
  body : json;
  status : nat
}.

(** The list [required_fields] of [create_trade]. *)
Definition required_fields : list string :=
  ["symbol"; "quantity"; "price"; "side"].

Section Views.
Context (rt : runtime).

(** [request.get_json()]: werkzeug raises [BadRequest] when the text does
    not decode; on a non-JSON content type it raises 415, or returns [None]
    before Flask 2.1. *)
Definition get_json (b : raw_body) : M json :=
  match b with
  | Json v => ret v
  | Garbled => raise BadRequest
  | NotJson => if legacy_get_json rt then ret JNull
               else raise UnsupportedMediaType
  end.

Definition no_json_data : response :=
  Response (dict [("error", JStr "No JSON data provided");
                  ("message", JStr "Request body must contain valid JSON")])
           400.

Definition invalid_json_format : response :=
  Response (dict [("error", JStr "Invalid JSON format");
                  ("message", JStr "Request body must contain valid JSON")])
           400.

Definition internal_server_error (e : exn) : response :=
  Response (dict [("error", JStr "Internal server error");
                  ("message", JStr (exn_str rt e))])
           500.

Definition trade_not_found (trade_id : string) : response :=
  Response (dict [("error", JStr "Trade not found");
                  ("message",
                   JStr ("No trade found with ID: " +:+ trade_id))])
           404.

(** [try: ... except Exception as e: ...] *)
Definition try_except (m : M response) : world -> response * world :=
  fun w => match m w with
           | (Ok r, w') => (r, w')
           | (Raise e, w') => (internal_server_error e, w')
           end.

(** [try: ... except json.JSONDecodeError: ... except Exception as e: ...] *)
Definition try_except_json (m : M response) : world -> response * world :=
  fun w => match m w with
           | (Ok r, w') => (r, w')
           | (Raise JSONDecodeError, w') => (invalid_json_format, w')
           | (Raise e, w') => (internal_server_error e, w')
           end.

(** [[field for field in required_fields if field not in trade_data]] *)
Definition missing_fields (trade_data : json) : res (list string) :=
  filterM (fun field =>
             match contains trade_data field with
             | Ok b => Ok (negb b)
             | Raise e => Raise e
             end)
          required_fields.

(** [POST /api/trades] *)
Definition create_trade (req : raw_body) : world -> response * world :=
  try_except_json
    (trade_data <- get_json req ;;
     if negb (truthy trade_data) then ret no_json_data
     else
       missing <- lift (missing_fields trade_data) ;;
       if negb (Nat.eqb (length missing) 0) then
         ret (Response
                (dict [("error", JStr "Missing required fields");
                       ("missing_fields", JArr (JStr <$> missing));
                       ("required_fields", JArr (JStr <$> required_fields))])
                400)
       else
         saved <- TradeManager.save_trade rt trade_data ;;
         let '(trade_id, trade_data) := saved in
         ret (Response
                (dict [("message", JStr "Trade created successfully");
                       ("trade_id", trade_id);
                       ("trade_data", trade_data)])
                201))%py.

(** [GET /api/trades/<trade_id>] *)
Definition get_trade (trade_id : string) : world -> response * world :=
  try_except
    (trade_data <- TradeManager.get_trade trade_id ;;
     if truthy trade_data then
       ret (Response (dict [("message", JStr "Trade found");
                            ("trade_data", trade_data)])
                     200)
     else ret (trade_not_found trade_id))%py.

(** [GET /api/trades] *)
Definition get_all_trades : world -> response * world :=
  try_except
    (trades <- TradeManager.get_all_trades ;;
     ret (Response
            (dict [("message",
                    JStr ("Retrieved " +:+ pretty (length trades)
                          +:+ " trades"));
                   ("count", JInt (Z.of_nat (length trades)));
                   ("trades", JArr trades)])
            200))%py.

(** [PUT /api/trades/<trade_id>] *)
Definition update_trade (trade_id : string) (req : raw_body)
  : world -> response * world :=
  try_except_json
    (existing_trade <- TradeManager.get_trade trade_id ;;
     if negb (truthy existing_trade) then ret (trade_not_found trade_id)
     else
       trade_data <- get_json req ;;
       if negb (truthy trade_data) then ret no_json_data
       else
         trade_data <- lift (setitem trade_data "trade_id" (JStr trade_id)) ;;
         t <- now rt ;;
         trade_data <- lift (setitem trade_data "updated_timestamp" (JStr t)) ;;
         saved <- TradeManager.save_trade rt trade_data ;;
         let '(_, trade_data) := saved in
         ret (Response
                (dict [("message", JStr "Trade updated successfully");
                       ("trade_id", JStr trade_id);
                       ("trade_data", trade_data)])
                200))%py.

(** [DELETE /api/trades/<trade_id>] *)
Definition delete_trade (trade_id : string) : world -> response * world :=
  try_except
    (found <- path_exists (unit_name trade_id) ;;
     if found then
       _ <- os_remove (unit_name trade_id) ;;
       ret (Response (dict [("message", JStr "Trade deleted successfully");
                            ("trade_id", JStr trade_id)])
                     200)
     else ret (trade_not_found trade_id))%py.

(** [GET /health]: no [try], one reading of the clock. *)
Definition health_check : world -> response * world :=
  fun w =>
    (Response
       (dict [("status", JStr "healthy");
              ("message", JStr "Transaction Management API is running");
              ("timestamp", JStr (isoformat rt (clock w)))])
       200,
     World (files w) (S (clock w)) (rng w)).

(** [@app.errorhandler(404)] *)
Definition not_found : response :=
  Response (dict [("error", JStr "Endpoint not found");
                  ("message", JStr "The requested endpoint does not exist")])
           404.

(** [@app.errorhandler(405)] *)
Definition method_not_allowed : response :=
  Response
    (dict [("error", JStr "Method not allowed");
           ("message",
            JStr "The request method is not allowed for this endpoint")])
    405.

End Views.

(** ** Vocabulary of the statements *)

(** A field of a response body. *)
Definition field (r : response) (k : string) : option json :=
  match body r with
  | JObj m => m !! k
  | _ => None
  end.

(** What [save_trade] does to a dict that lacks ["timestamp"], at clock
    reading [n]. *)
Definition stamp (rt : runtime) (n : nat) (m : gmap string json)
  : gmap string json :=
  if bool_decide (is_Some (m !! "timestamp")) then m
  else <["timestamp" := JStr (isoformat rt n)]> m.

(** What [update_trade] makes of the body [U] before it saves it: the path
    identifier and the clock reading [n] are forced in. *)
Definition forced (rt : runtime) (trade_id : string) (n : nat)
  (U : gmap string json) : gmap string json :=
  <["updated_timestamp" := JStr (isoformat rt n)]>
    (<["trade_id" := JStr trade_id]> U).


(** The clock after [save_trade] has seen the dict [m]. *)
Definition tick (m : gmap string json) (n : nat) : nat :=
  if bool_decide (is_Some (m !! "timestamp")) then n else S n.

(** The required fields a dict lacks, in the words of the specification. *)
Definition absent_required (m : gmap string json) : list string :=
  filter (fun f => m !! f = None) required_fields.

(** A client of the create and delete routes. *)
Inductive request : Type :=
| Create (req : raw_body)
| Delete (trade_id : string).

Definition serve (rt : runtime) (r : request) : world -> response * world :=
  match r with
  | Create req => create_trade rt req
  | Delete trade_id => delete_trade rt trade_id
  end.

Fixpoint run (rt : runtime) (rs : list request) (w : world)
  : list response * world :=
  match rs with
  | [] => ([], w)
  | r :: rs' =>
      let '(x, w1) := serve rt r w in
      let '(xs, w2) := run rt rs' w1 in
      (x :: xs, w2)
  end.

(** How many of the responses carry the status [code]. *)
Definition answered (code : nat) (xs : list response) : nat :=
  length (filter (fun x => status x = code) xs).



(** A request as Flask dispatches it: to one of the six views, or to one
    of the two error handlers when no rule, or no rule for the method,
    matches. *)
Inductive call : Type :=
| Health
| Post (req : raw_body)
| GetOne (trade_id : string)
| GetAll
| Put (trade_id : string) (req : raw_body)
| Del (trade_id : string)
| NoRoute
| BadMethod.

Definition answer (rt : runtime) (c : call) : world -> response * world :=
  match c with
  | Health => health_check rt
  | Post req => create_trade rt req
  | GetOne trade_id => get_trade rt trade_id
  | GetAll => get_all_trades rt
  | Put trade_id req => update_trade rt trade_id req
  | Del trade_id => delete_trade rt trade_id
  | NoRoute => fun w => (not_found, w)
  | BadMethod => fun w => (method_not_allowed, w)
  end.

(** The requests of a client, served one after the other. *)
Fixpoint session (rt : runtime) (cs : list call) (w : world)
  : list response * world :=
  match cs with
  | [] => ([], w)
  | c :: cs' =>
      let '(x, w1) := answer rt c w in
      let '(xs, w2) := session rt cs' w1 in
      (x :: xs, w2)
  end.





(** A concrete runtime for the examples: clock readings [T0], [T1], ...,
    identifiers [id-0], [id-1], ... *)
Definition demo : runtime :=
  Runtime (fun n => "T" +:+ pretty n)
          (fun n => "id-" +:+ pretty n)
          (fun _ => "?")
          (fun _ => "exception")
          false.

(** The service at start-up: an empty [trades] directory. *)
Definition boot : world := World ∅ 0 0.

(** The body of the specification's concrete scenario. *)
Definition aapl : gmap string json :=
  list_to_map [("symbol", JStr "AAPL"); ("quantity", JInt 100);
               ("price", JFloat 4639490468470587392); ("side", JStr "BUY")].

(** The answer to posting that body to the fresh service. *)
Definition created : response :=
  fst (create_trade demo (Json (JObj aapl)) boot).

(** The store after that body has been posted to the fresh service. *)
Definition stocked : world := snd (create_trade demo (Json (JObj aapl)) boot).

(** The stocked store with a file that is not JSON dropped next to the
    record. *)
Definition spoiled : world :=
  World (<["broken.json" := Corrupt]> (files stocked))
        (clock stocked) (rng stocked).

(** A store holding one file whose content is the empty dict. *)
Definition hollow : world := World {["void.json" := Parsed (JObj ∅)]} 0 0.

(** A JSON array that lists the names of the four required fields. *)
Definition names_only : json :=
  JArr [JStr "symbol"; JStr "quantity"; JStr "price"; JStr "side"].


(** A create followed by the delete of what it created. *)
Definition in_and_out : list request :=
  [Create (Json (JObj aapl)); Create (Json (JObj aapl)); Delete "id-0"].

(** An update body that resends one field only. *)
Definition resize : gmap string json := {["quantity" := JInt 200]}.


(** A client that creates, updates, lists, deletes what is not there, and
    creates again under an identifier of its own. *)
Definition errands : list call :=
  [Post (Json (JObj aapl)); Put "id-0" (Json (JObj resize)); GetAll;
   Del "nowhere"; Post (Json (JObj (<["trade_id" := JStr "mine"]> aapl)));
   Post Garbled; Health].

(** A directory with one record and, next to it, a file that is neither
    named [*.json] nor JSON. *)
Definition annotated : world :=
  World (<["notes.txt" := Corrupt]>
           (<["a.json" := Parsed (JObj aapl)]> ∅)) 0 0.

(** ** Lemmas on the Python operations *)




Lemma truthy_insert (k : string) (v : json) (m : gmap string json) :
  truthy (JObj (<[k := v]> m)) = true.
Proof.
  simpl. destruct (Nat.eqb_spec (size (<[k := v]> m)) 0) as [E|]; [|done].
  apply map_size_empty_iff in E. by apply insert_non_empty in E.
Qed.

Lemma truthy_obj (m : gmap string json) : m <> ∅ -> truthy (JObj m) = true.
Proof.
  intros Hm. simpl. destruct (Nat.eqb_spec (size m) 0) as [E|]; [|done].
  by apply map_size_empty_iff in E.
Qed.

Lemma stamp_has_timestamp rt n m : is_Some (stamp rt n m !! "timestamp").
Proof.
  unfold stamp. case_bool_decide as H; [done|].
  rewrite lookup_insert_eq. eauto.
Qed.

Lemma stamp_other rt n m k : k <> "timestamp" -> stamp rt n m !! k = m !! k.
Proof.
  intros Hk. unfold stamp. case_bool_decide; [done|].
  by rewrite lookup_insert_ne.
Qed.

Lemma stamp_keeps rt n m k v : m !! k = Some v -> stamp rt n m !! k = Some v.
Proof.
  intros Hk. unfold stamp. case_bool_decide as H; [done|].
  rewrite lookup_insert_ne; [done|]. intros <-. apply H. eauto.
Qed.




Lemma stamp_non_empty rt n m : m <> ∅ -> stamp rt n m <> ∅.
Proof.
  intros Hm. unfold stamp. case_bool_decide; [done|]. apply insert_non_empty.
Qed.

(** ** The store operations, as equations *)

Ltac unfold_py :=
  unfold bind, ret, lift, raise, now, new_uuid, write_unit, path_exists,
    os_remove.

Section StoreFacts.
Context (rt : runtime).

(** A dict that carries a usable identifier is written under that name. *)
Lemma save_trade_named (m : gmap string json) (t : json) (w : world) :
  m !! "trade_id" = Some t ->
  truthy t = true ->
  TradeManager.save_trade rt (JObj m) w =
    (Ok (t, JObj (stamp rt (clock w) m)),
     World (<[unit_name (py_str rt t) := Parsed (JObj (stamp rt (clock w) m))]>
              (files w))
           (tick m (clock w)) (rng w)).
Proof.
  intros Hid Ht. unfold TradeManager.save_trade, stamp, tick. unfold_py.
  simpl. rewrite Hid. simpl. rewrite Ht. simpl.
  case_bool_decide; reflexivity.
Qed.

(** A dict without one is given the generator's next draw. *)
Lemma save_trade_unnamed (m : gmap string json) (w : world) :
  truthy (default JNull (m !! "trade_id")) = false ->
  let u := uuid4 rt (rng w) in
  let m1 := <["trade_id" := JStr u]> m in
  TradeManager.save_trade rt (JObj m) w =
    (Ok (JStr u, JObj (stamp rt (clock w) m1)),
     World (<[unit_name u := Parsed (JObj (stamp rt (clock w) m1))]> (files w))
           (tick m1 (clock w)) (S (rng w))).
Proof.
  intros Ht u m1. unfold TradeManager.save_trade, stamp, tick. unfold_py.
  simpl. rewrite Ht. simpl. fold u. fold m1.
  case_bool_decide; reflexivity.
Qed.

Lemma get_trade_missing (trade_id : string) (w : world) :
  files w !! unit_name trade_id = None ->
  TradeManager.get_trade trade_id w = (Ok JNull, w).
Proof. intros H. unfold TradeManager.get_trade. by rewrite H. Qed.

Lemma get_trade_parsed (trade_id : string) (v : json) (w : world) :
  files w !! unit_name trade_id = Some (Parsed v) ->
  TradeManager.get_trade trade_id w = (Ok v, w).
Proof. intros H. unfold TradeManager.get_trade. by rewrite H. Qed.

(** The view on a record that is there. *)
Lemma get_trade_found (trade_id : string) (v : json) (w : world) :
  files w !! unit_name trade_id = Some (Parsed v) ->
  truthy v = true ->
  get_trade rt trade_id w =
    (Response (dict [("message", JStr "Trade found"); ("trade_data", v)]) 200,
     w).
Proof.
  intros H Hv. unfold get_trade, try_except. unfold_py.
  rewrite (get_trade_parsed _ _ _ H). by rewrite Hv.
Qed.

(** The view on an identifier that names no file. *)
Lemma get_trade_not_found (trade_id : string) (w : world) :
  files w !! unit_name trade_id = None ->
  get_trade rt trade_id w = (trade_not_found trade_id, w).
Proof.
  intros H. unfold get_trade, try_except. unfold_py.
  by rewrite (get_trade_missing _ _ H).
Qed.

Lemma missing_fields_dict (m : gmap string json) :
  missing_fields (JObj m) = Ok (absent_required m).
Proof.
  unfold missing_fields, absent_required, required_fields. simpl.
  rewrite !filter_cons, filter_nil.
  repeat case_bool_decide; repeat case_decide;
    repeat match goal with
      | H : is_Some (?x) , H' : ?x = None |- _ =>
          rewrite H' in H; destruct H; discriminate
      | H : ¬ is_Some (?x) , H' : ?x ≠ None |- _ =>
          exfalso; apply H; destruct x; [eauto | done]
      end; reflexivity.
Qed.

Lemma absent_required_spec (m : gmap string json) (f : string) :
  f ∈ absent_required m <-> f ∈ required_fields /\ m !! f = None.
Proof. unfold absent_required. rewrite list_elem_of_filter. tauto. Qed.

End StoreFacts.

(** ** Update of an unknown identifier *)

(** C9. A PUT whose path identifier names no stored unit is answered 404
    with the store, the clock and the generator untouched, whatever the
    request body is: the body is not even read. *)
Theorem update_unknown_is_404
  (rt : runtime) (trade_id : string) (req : raw_body) (w : world) :
  files w !! unit_name trade_id = None ->
  update_trade rt trade_id req w = (trade_not_found trade_id, w)
  /\ status (trade_not_found trade_id) = 404.
Proof.
  intros H. split; [|reflexivity].
  unfold update_trade, try_except_json. unfold_py.
  by rewrite (get_trade_missing _ _ H).
Qed.

Lemma update_unknown_is_404_witness :
  files boot !! unit_name "unknown-id" = None
  /\ (update_trade demo "unknown-id" Garbled boot
        = (trade_not_found "unknown-id", boot)
      /\ status (trade_not_found "unknown-id") = 404).
Proof.
  split; [reflexivity|].
  apply (update_unknown_is_404 demo "unknown-id" Garbled boot). reflexivity.
Defined.

(** ** Delete *)

(** C7. Deleting an identifier whose unit exists answers 200 and removes the
    unit; after that, Get-one on the identifier answers 404 and a second
    Delete answers 404 as well, leaving the store as it is. *)
Theorem delete_then_not_found (rt : runtime) (trade_id : string) (w : world) :
  is_Some (files w !! unit_name trade_id) ->
  exists w1,
    delete_trade rt trade_id w =
      (Response (dict [("message", JStr "Trade deleted successfully");
                       ("trade_id", JStr trade_id)]) 200, w1)
    /\ files w1 = delete (unit_name trade_id) (files w)
    /\ files w1 !! unit_name trade_id = None
    /\ get_trade rt trade_id w1 = (trade_not_found trade_id, w1)
    /\ delete_trade rt trade_id w1 = (trade_not_found trade_id, w1)
    /\ status (trade_not_found trade_id) = 404.
Proof.
  intros Hex.
  exists (World (delete (unit_name trade_id) (files w)) (clock w) (rng w)).
  assert (Hgone : delete (unit_name trade_id) (files w)
                    !! unit_name trade_id = None) by apply lookup_delete_eq.
  repeat split.
  - unfold delete_trade, try_except. unfold_py.
    by rewrite bool_decide_eq_true_2.
  - exact Hgone.
  - by apply get_trade_not_found.
  - unfold delete_trade, try_except. unfold_py. simpl.
    rewrite bool_decide_eq_false_2; [done|].
    rewrite Hgone. by intros [? ?].
Qed.

Lemma delete_then_not_found_witness :
  is_Some (files stocked !! unit_name "id-0")
  /\ exists w1,
       delete_trade demo "id-0" stocked =
         (Response (dict [("message", JStr "Trade deleted successfully");
                          ("trade_id", JStr "id-0")]) 200, w1)
       /\ files w1 = delete (unit_name "id-0") (files stocked)
       /\ files w1 !! unit_name "id-0" = None
       /\ get_trade demo "id-0" w1 = (trade_not_found "id-0", w1)
       /\ delete_trade demo "id-0" w1 = (trade_not_found "id-0", w1)
       /\ status (trade_not_found "id-0") = 404.
Proof.
  assert (H : is_Some (files stocked !! unit_name "id-0")).
  { vm_compute. eauto. }
  split; [exact H|]. exact (delete_then_not_found demo "id-0" stocked H).
Defined.

(** ** Bodies that are not a usable JSON object *)

(** C5. A create whose body does not decode: [get_json()] raises werkzeug's
    [BadRequest], which is not a [json.JSONDecodeError], so the handler meant
    for it is passed over and the catch-all answers 500. *)
Theorem create_garbled_is_500 (rt : runtime) (w : world) :
  create_trade rt Garbled w = (internal_server_error rt BadRequest, w)
  /\ status (internal_server_error rt BadRequest) = 500
  /\ field (internal_server_error rt BadRequest) "error"
       = Some (JStr "Internal server error").
Proof. repeat split. Qed.




(** ** Validation of the required fields *)

(** C3, as amended. A create whose body is a non-empty JSON object lacking
    some required field is answered 400 with [missing_fields] listing
    exactly the required fields that are absent, in the order of
    [required_fields], and leaves the world as it was. *)
Theorem create_reports_missing_fields
  (rt : runtime) (m : gmap string json) (f : string) (w : world) :
  m <> ∅ ->
  f ∈ required_fields ->
  m !! f = None ->
  create_trade rt (Json (JObj m)) w =
    (Response
       (dict [("error", JStr "Missing required fields");
              ("missing_fields", JArr (JStr <$> absent_required m));
              ("required_fields", JArr (JStr <$> required_fields))])
       400, w)
  /\ (forall g, g ∈ absent_required m
                <-> g ∈ required_fields /\ m !! g = None).
Proof.
  intros Hm Hf Hnone. split; [|apply absent_required_spec].
  unfold create_trade, try_except_json, get_json. unfold_py.
  cbv beta iota. rewrite (truthy_obj _ Hm). cbn [negb].
  rewrite missing_fields_dict.
  assert (Hin : f ∈ absent_required m) by (by apply absent_required_spec).
  destruct (absent_required m) as [|g l] eqn:E; [by apply elem_of_nil in Hin|].
  reflexivity.
Qed.

Lemma create_reports_missing_fields_witness :
  ({["symbol" := JStr "AAPL"]} : gmap string json) <> ∅
  /\ "quantity" ∈ required_fields
  /\ ({["symbol" := JStr "AAPL"]} : gmap string json) !! "quantity" = None
  /\ (create_trade demo (Json (JObj {["symbol" := JStr "AAPL"]})) boot =
        (Response
           (dict [("error", JStr "Missing required fields");
                  ("missing_fields",
                   JArr (JStr <$> absent_required {["symbol" := JStr "AAPL"]}));
                  ("required_fields", JArr (JStr <$> required_fields))])
           400, boot)
      /\ (forall g, g ∈ absent_required {["symbol" := JStr "AAPL"]}
                    <-> g ∈ required_fields
                        /\ ({["symbol" := JStr "AAPL"]} : gmap string json)
                             !! g = None)).
Proof.
  assert (H1 : ({["symbol" := JStr "AAPL"]} : gmap string json) <> ∅)
    by apply insert_non_empty.
  assert (H2 : "quantity" ∈ required_fields)
    by (unfold required_fields; set_solver).
  assert (H3 : ({["symbol" := JStr "AAPL"]} : gmap string json)
                 !! "quantity" = None) by reflexivity.
  exact (conj H1 (conj H2 (conj H3
           (create_reports_missing_fields demo _ "quantity" boot H1 H2 H3)))).
Defined.

(** C3, as stated, fails on the empty object: all four required fields are
    absent, yet the 400 carries no [missing_fields] array. *)
Lemma create_empty_object_lists_nothing :
  absent_required ∅ = required_fields
  /\ status (fst (create_trade demo (Json (JObj ∅)) boot)) = 400
  /\ field (fst (create_trade demo (Json (JObj ∅)) boot)) "missing_fields"
       = None.
Proof. repeat split. Qed.

(** The specification's scenario: posting only [symbol] lists the other
    three required fields, in order. *)
Example create_symbol_only :
  field (fst (create_trade demo (Json (JObj {["symbol" := JStr "AAPL"]})) boot))
        "missing_fields"
  = Some (JArr [JStr "quantity"; JStr "price"; JStr "side"]).
Proof. reflexivity. Qed.

(** ** Save is keyed by identifier *)



(** ** Create, then read *)


(** A create that passes validation is the save of its body. *)
Lemma create_trade_saves
  (rt : runtime) (m : gmap string json) (w : world) :
  m <> ∅ ->
  absent_required m = [] ->
  create_trade rt (Json (JObj m)) w =
    match TradeManager.save_trade rt (JObj m) w with
    | (Ok (trade_id, trade_data), w1) =>
        (Response (dict [("message", JStr "Trade created successfully");
                         ("trade_id", trade_id);
                         ("trade_data", trade_data)]) 201, w1)
    | (Raise JSONDecodeError, w1) => (invalid_json_format, w1)
    | (Raise e, w1) => (internal_server_error rt e, w1)
    end.
Proof.
  intros Hm Habs.
  unfold create_trade, try_except_json, get_json. unfold_py.
  cbv beta iota. rewrite (truthy_obj _ Hm). cbn [negb].
  rewrite missing_fields_dict, Habs. cbn [length Nat.eqb negb].
  destruct (TradeManager.save_trade rt (JObj m) w) as [[[i d]|e] w1];
    reflexivity.
Qed.




(** ** What a create can do *)

(** Either the request is turned down with 400 or 500 and the world is as
    before, or the body is a dict that passed validation and was saved. *)
Lemma create_trade_cases (rt : runtime) (req : raw_body) (w : world) :
  (exists r, create_trade rt req w = (r, w)
             /\ (status r = 400 \/ status r = 500))
  \/ (exists m id rec w1,
        req = Json (JObj m)
        /\ TradeManager.save_trade rt (JObj m) w = (Ok (id, JObj rec), w1)
        /\ create_trade rt req w =
             (Response (dict [("message", JStr "Trade created successfully");
                              ("trade_id", id);
                              ("trade_data", JObj rec)]) 201, w1)).
Proof.
  destruct req as [v| |].
  - destruct (truthy v) eqn:Hv.
    + destruct (missing_fields v) as [l|e] eqn:Hl.
      * destruct l as [|g l].
        -- destruct v as [ |b|z|bits|s|l|m].
           1-6: left; eexists; split;
             [unfold create_trade, try_except_json, get_json; unfold_py;
              cbv beta iota; rewrite Hv; cbn [negb]; rewrite Hl;
              reflexivity | right; reflexivity].
           right.
           assert (Hm : m <> ∅).
           { intros ->. discriminate Hv. }
           assert (Habs : absent_required m = []).
           { rewrite missing_fields_dict in Hl. congruence. }
           destruct (truthy (default JNull (m !! "trade_id"))) eqn:Hid.
           ++ destruct (m !! "trade_id") as [t|] eqn:Ht; [|discriminate Hid].
              simpl in Hid. eexists m, t, _, _. split; [reflexivity|].
              rewrite (create_trade_saves rt m w Hm Habs).
              rewrite (save_trade_named rt m t w Ht Hid). split; reflexivity.
           ++ eexists m, _, _, _. split; [reflexivity|].
              rewrite (create_trade_saves rt m w Hm Habs).
              rewrite (save_trade_unnamed rt m w Hid). split; reflexivity.
        -- left. eexists. split;
             [unfold create_trade, try_except_json, get_json; unfold_py;
              cbv beta iota; rewrite Hv; cbn [negb]; rewrite Hl;
              reflexivity | left; reflexivity].
      * left. unfold create_trade, try_except_json, get_json. unfold_py.
        cbv beta iota. rewrite Hv. cbn [negb]. rewrite Hl.
        destruct e; eexists; (split; [reflexivity|]);
          first [left; reflexivity | right; reflexivity].
    + left. eexists. split;
        [unfold create_trade, try_except_json, get_json; unfold_py;
         cbv beta iota; rewrite Hv; reflexivity | left; reflexivity].
  - left. eexists. split; [reflexivity | right; reflexivity].
  - left. unfold create_trade, try_except_json, get_json. unfold_py.
    destruct (legacy_get_json rt); eexists; split;
      [reflexivity | left; reflexivity | reflexivity | right; reflexivity].
Qed.

(** The dict [save_trade] has written is the one it hands back, and it is
    filed under the identifier it returns. *)
Lemma save_trade_files
  (rt : runtime) (m : gmap string json) (id rec : json) (w w1 : world) :
  TradeManager.save_trade rt (JObj m) w = (Ok (id, rec), w1) ->
  files w1 = <[unit_name (py_str rt id) := Parsed rec]> (files w)
  /\ truthy rec = true.
Proof.
  intros H. destruct (truthy (default JNull (m !! "trade_id"))) eqn:Hid.
  - destruct (m !! "trade_id") as [t|] eqn:Ht; [|discriminate Hid].
    simpl in Hid. rewrite (save_trade_named rt m t w Ht Hid) in H.
    injection H as <- <- <-. split; [reflexivity|].
    apply truthy_obj, stamp_non_empty. intros ->.
    by rewrite lookup_empty in Ht.
  - rewrite (save_trade_unnamed rt m w Hid) in H.
    injection H as <- <- <-. split; [reflexivity|].
    apply truthy_obj, stamp_non_empty, insert_non_empty.
Qed.

(** ** Update replaces the record *)



Lemma field_trade_id (a b c : json) (code : nat) :
  field (Response (dict [("message", a); ("trade_id", b); ("trade_data", c)])
                  code) "trade_id" = Some b.
Proof. unfold field, dict. simpl. by simplify_map_eq. Qed.




(** ** Get-all *)

Lemma mapM_corrupt
  (l : list (string * unit_content)) (e : string * unit_content) :
  e ∈ l ->
  snd e = Corrupt ->
  mapM (fun e => TradeManager.load_unit (snd e)) l = Raise JSONDecodeError.
Proof.
  intros Hin He. induction l as [|x l IH]; [by apply elem_of_nil in Hin|].
  simpl. destruct (snd x) as [v|] eqn:Hx; simpl; [|reflexivity].
  apply elem_of_cons in Hin as [->|Hin]; [congruence|].
  by rewrite (IH Hin).
Qed.


Lemma elem_of_listing (w : world) (name : string) (c : unit_content) :
  (name, c) ∈ TradeManager.listing w
  <-> endswith ".json" name = true /\ files w !! name = Some c.
Proof.
  unfold TradeManager.listing.
  rewrite list_elem_of_filter, elem_of_map_to_list. reflexivity.
Qed.


(** C4, as amended. When some [*.json] unit of the store is corrupt, the
    store's [get_all_trades] does not skip it: it raises the decode error,
    and the view answers 500 with no list of records. *)
Theorem get_all_fails_on_corrupt (rt : runtime) (name : string) (w : world) :
  endswith ".json" name = true ->
  files w !! name = Some Corrupt ->
  TradeManager.get_all_trades w = (Raise JSONDecodeError, w)
  /\ get_all_trades rt w = (internal_server_error rt JSONDecodeError, w)
  /\ status (internal_server_error rt JSONDecodeError) = 500
  /\ field (internal_server_error rt JSONDecodeError) "trades" = None.
Proof.
  intros Hn Hc.
  assert (H : TradeManager.get_all_trades w = (Raise JSONDecodeError, w)).
  { unfold TradeManager.get_all_trades.
    rewrite (mapM_corrupt _ (name, Corrupt)); [done| |done].
    by apply elem_of_listing. }
  split; [exact H|]. split; [|split; reflexivity].
  unfold get_all_trades, try_except. unfold_py. by rewrite H.
Qed.

Lemma get_all_fails_on_corrupt_witness :
  endswith ".json" "broken.json" = true
  /\ files spoiled !! "broken.json" = Some Corrupt
  /\ (TradeManager.get_all_trades spoiled = (Raise JSONDecodeError, spoiled)
      /\ get_all_trades demo spoiled
           = (internal_server_error demo JSONDecodeError, spoiled)
      /\ status (internal_server_error demo JSONDecodeError) = 500
      /\ field (internal_server_error demo JSONDecodeError) "trades" = None).
Proof.
  assert (H1 : endswith ".json" "broken.json" = true) by reflexivity.
  assert (H2 : files spoiled !! "broken.json" = Some Corrupt)
    by (vm_compute; reflexivity).
  exact (conj H1 (conj H2
           (get_all_fails_on_corrupt demo "broken.json" spoiled H1 H2))).
Defined.


(** C4, as stated, fails: next to a record that decodes lies a file that
    does not, and Get-all answers 500 without any list. *)
Lemma get_all_does_not_skip :
  files spoiled !! "broken.json" = Some Corrupt
  /\ files spoiled !! unit_name "id-0" = files stocked !! unit_name "id-0"
  /\ is_Some (files stocked !! unit_name "id-0")
  /\ status (fst (get_all_trades demo stocked)) = 200
  /\ status (fst (get_all_trades demo spoiled)) = 500
  /\ field (fst (get_all_trades demo spoiled)) "trades" = None.
Proof.
  split; [vm_compute; reflexivity|].
  split; [vm_compute; reflexivity|].
  split; [vm_compute; eauto|].
  split; [vm_compute; reflexivity|].
  split; vm_compute; reflexivity.
Qed.

(** ** Counting creates and deletes *)









(** Two creates and one delete leave one record. *)
Example in_and_out_leaves_one :
  answered 201 (fst (run demo in_and_out boot)) = 2
  /\ answered 200 (fst (run demo in_and_out boot)) = 1
  /\ field (fst (get_all_trades demo (snd (run demo in_and_out boot)))) "count"
     = Some (JInt 1).
Proof. repeat split; vm_compute; reflexivity. Qed.


(** What each route can answer. *)
Remark serve_status (rt : runtime) (r : request) (w : world) :
  match r with
  | Create _ => status (fst (serve rt r w)) ∈ [201; 400; 500]
  | Delete _ => status (fst (serve rt r w)) ∈ [200; 404]
  end.
Proof.
  destruct r as [req|tid]; simpl.
  - destruct (create_trade_cases rt req w)
      as [(r' & -> & Hst) | (m & id & rec & w1 & _ & _ & ->)]; simpl.
    + destruct Hst as [-> | ->]; set_solver.
    + set_solver.
  - unfold delete_trade, try_except. unfold_py.
    case_bool_decide; simpl; set_solver.
Qed.

(** The specification's scenario: create, list, delete, read. *)
Example scenario_create_list_delete_get :
  status created = 201
  /\ field created "trade_id" = Some (JStr "id-0")
  /\ field (fst (get_all_trades demo stocked)) "count" = Some (JInt 1)
  /\ status (fst (delete_trade demo "id-0" stocked)) = 200
  /\ status (fst (get_trade demo "id-0"
                    (snd (delete_trade demo "id-0" stocked)))) = 404.
Proof. repeat split; vm_compute; reflexivity. Qed.

(** ** More on the store and the views *)

(** What [save_trade] does to any dict: it never raises, files the dict it
    hands back under the identifier it returns, and that dict carries the
    identifier, a timestamp and every other field of the input. *)
Lemma save_trade_dict (rt : runtime) (m : gmap string json) (w : world) :
  exists id rec clk draws,
    TradeManager.save_trade rt (JObj m) w =
      (Ok (id, JObj rec),
       World (<[unit_name (py_str rt id) := Parsed (JObj rec)]> (files w))
             clk draws)
    /\ rec !! "trade_id" = Some id
    /\ is_Some (rec !! "timestamp")
    /\ (forall t, m !! "trade_id" = Some t -> truthy t = true -> id = t)
    /\ (forall k v, k <> "trade_id" -> m !! k = Some v -> rec !! k = Some v).
Proof.
  destruct (truthy (default JNull (m !! "trade_id"))) eqn:Hid.
  - destruct (m !! "trade_id") as [t|] eqn:Ht; [|discriminate Hid].
    simpl in Hid. eexists t, _, _, _.
    split; [by apply save_trade_named|].
    split; [by apply stamp_keeps|].
    split; [apply stamp_has_timestamp|].
    split; [congruence|]. intros k v _. apply stamp_keeps.
  - exists (JStr (uuid4 rt (rng w))),
           (stamp rt (clock w) (<["trade_id" := JStr (uuid4 rt (rng w))]> m)),
           (tick (<["trade_id" := JStr (uuid4 rt (rng w))]> m) (clock w)),
           (S (rng w)).
    split; [by rewrite (save_trade_unnamed rt m w Hid)|].
    split; [apply stamp_keeps, lookup_insert_eq|].
    split; [apply stamp_has_timestamp|].
    split.
    + intros t Ht Htt. rewrite Ht in Hid. simpl in Hid. congruence.
    + intros k v Hk Hv. apply stamp_keeps. by rewrite lookup_insert_ne.
Qed.

(** What an update can do: turn the request down and leave the world as it
    was, or save the body, with the identifier and the update time forced
    in, over a unit that exists. *)
Lemma update_trade_cases
  (rt : runtime) (trade_id : string) (req : raw_body) (w : world) :
  (exists r, update_trade rt trade_id req w = (r, w)
             /\ (status r = 400 \/ status r = 404 \/ status r = 500))
  \/ (exists U id rec clk draws,
        req = Json (JObj U)
        /\ U <> ∅
        /\ (exists v, files w !! unit_name trade_id = Some (Parsed v)
                      /\ truthy v = true)
        /\ update_trade rt trade_id req w =
             (Response (dict [("message", JStr "Trade updated successfully");
                              ("trade_id", JStr trade_id);
                              ("trade_data", JObj rec)]) 200,
              World (<[unit_name (py_str rt id) := Parsed (JObj rec)]>
                       (files w)) clk draws)
        /\ rec !! "trade_id" = Some id
        /\ is_Some (rec !! "timestamp")
        /\ (trade_id <> "" -> id = JStr trade_id)).
Proof.
  unfold update_trade, try_except_json, get_json. unfold_py.
  unfold TradeManager.get_trade.
  destruct (files w !! unit_name trade_id) as [[v|]|] eqn:Hf.
  - destruct (truthy v) eqn:Hv; cbn [negb].
    + destruct req as [b| |].
      * destruct (truthy b) eqn:Hb; cbn [negb].
        -- destruct b as [ |b|z|bits|s|l|U];
             try (left; eexists; split;
                  [reflexivity | right; right; reflexivity]).
           right. cbn [setitem].
           destruct (save_trade_dict rt
                       (forced rt trade_id (clock w) U)
                       (World (files w) (S (clock w)) (rng w)))
             as (id & rec & clk & draws & Hsave & Hrid & Hts & Hkeep & _).
           exists U, id, rec, clk, draws.
           split; [reflexivity|].
           split; [intros ->; discriminate Hb|].
           split; [eauto|].
           split.
           { unfold forced in Hsave. rewrite Hsave. reflexivity. }
           split; [exact Hrid|]. split; [exact Hts|].
           intros Hne. apply Hkeep.
           ++ unfold forced. rewrite lookup_insert_ne by done.
              apply lookup_insert_eq.
           ++ simpl. by destruct (String.eqb_spec trade_id "").
        -- left. eexists. split; [reflexivity | left; reflexivity].
      * left. eexists. split; [reflexivity | right; right; reflexivity].
      * left. destruct (legacy_get_json rt); eexists; split;
          [reflexivity | left; reflexivity
          | reflexivity | right; right; reflexivity].
    + left. eexists. split; [reflexivity | right; left; reflexivity].
  - left. eexists. split; [reflexivity | left; reflexivity].
  - left. eexists. split; [reflexivity | right; left; reflexivity].
Qed.

(** ** Reading never writes *)

Lemma get_trade_world (rt : runtime) (trade_id : string) (w : world) :
  snd (get_trade rt trade_id w) = w.
Proof.
  unfold get_trade, try_except, TradeManager.get_trade. unfold_py.
  destruct (files w !! unit_name trade_id) as [[v|]|]; [|done..].
  by destruct (truthy v).
Qed.

Lemma get_all_trades_world (rt : runtime) (w : world) :
  snd (get_all_trades rt w) = w.
Proof.
  unfold get_all_trades, try_except, TradeManager.get_all_trades. unfold_py.
  by destruct (mapM _ _).
Qed.

(** X1. Get-one and Get-all leave the world exactly as they found it, whatever
    the identifier and whatever the files hold, corrupt ones included. *)
Theorem reads_leave_world (rt : runtime) (trade_id : string) (w : world) :
  snd (get_trade rt trade_id w) = w
  /\ snd (get_all_trades rt w) = w
  /\ snd (TradeManager.get_trade trade_id w) = w
  /\ snd (TradeManager.get_all_trades w) = w.
Proof.
  split; [apply get_trade_world|]. split; [apply get_all_trades_world|].
  split; [|reflexivity].
  unfold TradeManager.get_trade.
  by destruct (files w !! unit_name trade_id) as [[v|]|].
Qed.

(** ** A unit that is there but unusable *)



(** X3. A unit whose content decodes to a value Python counts as false (an
    empty dict or list, [null], zero, the empty string, [false]) is taken
    for absent by Get-one and by Update, which answer 404 and change
    nothing; Delete sees the file, removes it and answers 200. *)
Theorem falsy_unit_routes
  (rt : runtime) (trade_id : string) (v : json) (req : raw_body) (w : world) :
  files w !! unit_name trade_id = Some (Parsed v) ->
  truthy v = false ->
  get_trade rt trade_id w = (trade_not_found trade_id, w)
  /\ update_trade rt trade_id req w = (trade_not_found trade_id, w)
  /\ status (fst (delete_trade rt trade_id w)) = 200
  /\ files (snd (delete_trade rt trade_id w))
     = delete (unit_name trade_id) (files w).
Proof.
  intros H Hv. repeat split.
  - unfold get_trade, try_except, TradeManager.get_trade. unfold_py.
    by rewrite H, Hv.
  - unfold update_trade, try_except_json, TradeManager.get_trade. unfold_py.
    by rewrite H, Hv.
  - unfold delete_trade, try_except. unfold_py.
    by rewrite bool_decide_eq_true_2 by (rewrite H; eauto).
  - unfold delete_trade, try_except. unfold_py.
    by rewrite bool_decide_eq_true_2 by (rewrite H; eauto).
Qed.

Lemma falsy_unit_routes_witness :
  files hollow !! unit_name "void" = Some (Parsed (JObj ∅))
  /\ truthy (JObj ∅) = false
  /\ (get_trade demo "void" hollow = (trade_not_found "void", hollow)
      /\ update_trade demo "void" (Json (JObj resize)) hollow
         = (trade_not_found "void", hollow)
      /\ status (fst (delete_trade demo "void" hollow)) = 200
      /\ files (snd (delete_trade demo "void" hollow))
         = delete (unit_name "void") (files hollow)).
Proof.
  assert (H1 : files hollow !! unit_name "void" = Some (Parsed (JObj ∅)))
    by (vm_compute; reflexivity).
  assert (H2 : truthy (JObj ∅) = false) by reflexivity.
  exact (conj H1 (conj H2
           (falsy_unit_routes demo "void" (JObj ∅) (Json (JObj resize))
              hollow H1 H2))).
Defined.

(** ** Bodies that are JSON but not an object *)

(** X4. On a record that exists, an Update whose body is not a non-empty JSON
    object never writes: text that does not decode is answered 500, a body
    that decodes to a false value 400 "No JSON data provided", and any other
    non-dict value (array, string, number, [true]) 500, the item assignment
    raising before the clock is read. *)
Theorem update_bad_body
  (rt : runtime) (trade_id : string) (v b : json) (w : world) :
  files w !! unit_name trade_id = Some (Parsed v) ->
  truthy v = true ->
  (forall U, b <> JObj U) ->
  update_trade rt trade_id Garbled w = (internal_server_error rt BadRequest, w)
  /\ update_trade rt trade_id (Json b) w =
       (if truthy b then internal_server_error rt TypeError
        else no_json_data, w)
  /\ status (internal_server_error rt BadRequest) = 500
  /\ status (internal_server_error rt TypeError) = 500.
Proof.
  intros H Hv Hb. repeat split.
  - unfold update_trade, try_except_json, get_json. unfold_py.
    by rewrite (get_trade_parsed _ _ _ H), Hv.
  - unfold update_trade, try_except_json, get_json. unfold_py.
    rewrite (get_trade_parsed _ _ _ H), Hv. cbv beta iota.
    destruct (truthy b) eqn:Htb; cbn [negb]; [|reflexivity].
    destruct b as [ |x|z|bits|s|l|U]; try reflexivity.
    by destruct (Hb U).
Qed.

Lemma update_bad_body_witness :
  files stocked !! unit_name "id-0"
    = Some (Parsed (JObj (stamp demo 0 (<["trade_id" := JStr "id-0"]> aapl))))
  /\ truthy (JObj (stamp demo 0 (<["trade_id" := JStr "id-0"]> aapl))) = true
  /\ (forall U, JArr [JInt 1] <> JObj U)
  /\ (update_trade demo "id-0" Garbled stocked
        = (internal_server_error demo BadRequest, stocked)
      /\ update_trade demo "id-0" (Json (JArr [JInt 1])) stocked =
           (if truthy (JArr [JInt 1]) then internal_server_error demo TypeError
            else no_json_data, stocked)
      /\ status (internal_server_error demo BadRequest) = 500
      /\ status (internal_server_error demo TypeError) = 500).
Proof.
  assert (H1 : files stocked !! unit_name "id-0" = Some (Parsed (JObj
                 (stamp demo 0 (<["trade_id" := JStr "id-0"]> aapl)))))
    by (vm_compute; reflexivity).
  assert (H2 : truthy (JObj (stamp demo 0 (<["trade_id" := JStr "id-0"]> aapl)))
               = true) by (vm_compute; reflexivity).
  assert (H3 : forall U, JArr [JInt 1] <> JObj U) by discriminate.
  exact (conj H1 (conj H2 (conj H3
           (update_bad_body demo "id-0" _ (JArr [JInt 1]) stocked
              H1 H2 H3)))).
Defined.

(** X5. A body that is not a dict but passes the [in] tests of the validation
    (an array that has the four names among its elements, a string that has
    them as substrings) reaches [save_trade], whose [.get] raises: the
    answer is 500 and nothing is stored. *)
Theorem create_non_dict_passing_validation
  (rt : runtime) (b : json) (w : world) :
  (forall U, b <> JObj U) ->
  (forall f, f ∈ required_fields -> contains b f = Ok true) ->
  create_trade rt (Json b) w = (internal_server_error rt AttributeError, w)
  /\ status (internal_server_error rt AttributeError) = 500.
Proof.
  intros Hb Hin. split; [|reflexivity].
  assert (Hs : contains b "symbol" = Ok true)
    by (apply Hin; unfold required_fields; set_solver).
  assert (Hq : contains b "quantity" = Ok true)
    by (apply Hin; unfold required_fields; set_solver).
  assert (Hp : contains b "price" = Ok true)
    by (apply Hin; unfold required_fields; set_solver).
  assert (Hd : contains b "side" = Ok true)
    by (apply Hin; unfold required_fields; set_solver).
  assert (Hm : missing_fields b = Ok []).
  { unfold missing_fields, required_fields. cbn [filterM].
    by rewrite Hs, Hq, Hp, Hd. }
  assert (Ht : truthy b = true).
  { destruct b as [ |x|z|bits|s|l|U]; try discriminate Hs.
    - by destruct s.
    - by destruct l.
    - by destruct (Hb U). }
  unfold create_trade, try_except_json, get_json. unfold_py.
  cbv beta iota. rewrite Ht. cbn [negb]. rewrite Hm.
  destruct b as [ |x|z|bits|s|l|U]; try reflexivity.
  by destruct (Hb U).
Qed.

Lemma create_non_dict_passing_validation_witness :
  (forall U, names_only <> JObj U)
  /\ (forall f, f ∈ required_fields -> contains names_only f = Ok true)
  /\ (create_trade demo (Json names_only) boot
        = (internal_server_error demo AttributeError, boot)
      /\ status (internal_server_error demo AttributeError) = 500).
Proof.
  assert (H1 : forall U, names_only <> JObj U) by discriminate.
  assert (H2 : forall f, f ∈ required_fields ->
                         contains names_only f = Ok true).
  { intros f Hf. unfold required_fields in Hf.
    repeat (apply elem_of_cons in Hf as [->|Hf]; [reflexivity|]).
    by apply elem_of_nil in Hf. }
  exact (conj H1 (conj H2
           (create_non_dict_passing_validation demo names_only boot H1 H2))).
Defined.

(** The same with a string body. *)
Example create_string_body :
  create_trade demo (Json (JStr "symbol quantity price side")) boot
  = (internal_server_error demo AttributeError, boot).
Proof. reflexivity. Qed.

(** ** What a 201 promises *)

Lemma field_trade_data (a b c : json) (code : nat) :
  field (Response (dict [("message", a); ("trade_id", b); ("trade_data", c)])
                  code) "trade_data" = Some c.
Proof. unfold field, dict. simpl. by simplify_map_eq. Qed.

(** X6. Whenever a create answers 201, for a generated identifier or one the
    body brought, the [trade_id] and the [trade_data] of the answer are what
    the store holds: the record carries that [trade_id] and a timestamp, and
    Get-one on the identifier, written as text, returns that very record. *)
Theorem created_is_readable
  (rt : runtime) (req : raw_body) (w w1 : world) (r : response) :
  create_trade rt req w = (r, w1) ->
  status r = 201 ->
  exists id rec,
    field r "trade_id" = Some id
    /\ field r "trade_data" = Some (JObj rec)
    /\ rec !! "trade_id" = Some id
    /\ is_Some (rec !! "timestamp")
    /\ get_trade rt (py_str rt id) w1 =
         (Response (dict [("message", JStr "Trade found");
                          ("trade_data", JObj rec)]) 200, w1).
Proof.
  intros Hc Hs.
  destruct (create_trade_cases rt req w)
    as [(r' & Hr' & Hst) | (m & id & rec & w1' & -> & Hsave & Hr')];
    rewrite Hc in Hr'.
  { injection Hr' as <- _. rewrite Hs in Hst. by destruct Hst. }
  injection Hr' as -> ->.
  exists id, rec.
  split; [apply field_trade_id|]. split; [apply field_trade_data|].
  destruct (save_trade_dict rt m w)
    as (id' & rec' & clk & draws & Hsave' & Hrid & Hts & _).
  rewrite Hsave in Hsave'.
  assert (Hpair : (id, JObj rec) = (id', JObj rec')) by congruence.
  assert (id' = id) as -> by congruence.
  assert (rec' = rec) as -> by congruence.
  split; [exact Hrid|]. split; [exact Hts|].
  apply save_trade_files in Hsave as [Hfiles Hrec].
  apply get_trade_found; [|exact Hrec].
  rewrite Hfiles. apply lookup_insert_eq.
Qed.

Lemma created_is_readable_witness :
  create_trade demo (Json (JObj (<["trade_id" := JStr "mine"]> aapl))) stocked
    = (fst (create_trade demo (Json (JObj (<["trade_id" := JStr "mine"]> aapl)))
              stocked),
       snd (create_trade demo (Json (JObj (<["trade_id" := JStr "mine"]> aapl)))
              stocked))
  /\ status (fst (create_trade demo
                    (Json (JObj (<["trade_id" := JStr "mine"]> aapl))) stocked))
     = 201
  /\ exists id rec,
       field (fst (create_trade demo
                     (Json (JObj (<["trade_id" := JStr "mine"]> aapl))) stocked))
             "trade_id" = Some id
       /\ field (fst (create_trade demo
                        (Json (JObj (<["trade_id" := JStr "mine"]> aapl))) stocked))
                "trade_data" = Some (JObj rec)
       /\ rec !! "trade_id" = Some id
       /\ is_Some (rec !! "timestamp")
       /\ get_trade demo (py_str demo id)
            (snd (create_trade demo
                    (Json (JObj (<["trade_id" := JStr "mine"]> aapl))) stocked)) =
            (Response (dict [("message", JStr "Trade found");
                             ("trade_data", JObj rec)]) 200,
             snd (create_trade demo
                    (Json (JObj (<["trade_id" := JStr "mine"]> aapl))) stocked)).
Proof.
  assert (H1 : create_trade demo
                 (Json (JObj (<["trade_id" := JStr "mine"]> aapl))) stocked
               = (fst (create_trade demo
                         (Json (JObj (<["trade_id" := JStr "mine"]> aapl)))
                         stocked),
                  snd (create_trade demo
                         (Json (JObj (<["trade_id" := JStr "mine"]> aapl)))
                         stocked)))
    by apply surjective_pairing.
  assert (H2 : status (fst (create_trade demo
                 (Json (JObj (<["trade_id" := JStr "mine"]> aapl))) stocked)) = 201)
    by (vm_compute; reflexivity).
  exact (conj H1 (conj H2
           (created_is_readable demo _ stocked _ _ H1 H2))).
Defined.

(** ** Update stays on its unit *)

(** X7. An update on a path identifier Flask can route (it is not empty) never
    adds a unit and never removes one, whatever the body and the store; a
    unit under another name is left as it is. *)
Theorem update_keeps_units
  (rt : runtime) (trade_id : string) (req : raw_body) (w : world) :
  trade_id <> "" ->
  dom (files (snd (update_trade rt trade_id req w))) = dom (files w)
  /\ (forall name, name <> unit_name trade_id ->
        files (snd (update_trade rt trade_id req w)) !! name
        = files w !! name).
Proof.
  intros Hne.
  destruct (update_trade_cases rt trade_id req w)
    as [(r & -> & _)
       | (U & id & rec & clk & draws & _ & _ & (v & Hex & _) & -> & _ & _
          & Hid)];
    [done|].
  rewrite (Hid Hne). simpl. split.
  - apply set_eq. intros name. rewrite !elem_of_dom.
    destruct (decide (name = unit_name trade_id)) as [->|Hn].
    + rewrite lookup_insert_eq, Hex. split; eauto.
    + by rewrite lookup_insert_ne.
  - intros name Hn. by rewrite lookup_insert_ne.
Qed.

Lemma update_keeps_units_witness :
  "id-0" <> ""
  /\ (dom (files (snd (update_trade demo "id-0" (Json (JObj resize)) stocked)))
      = dom (files stocked)
      /\ (forall name, name <> unit_name "id-0" ->
            files (snd (update_trade demo "id-0" (Json (JObj resize))
                          stocked)) !! name
            = files stocked !! name)).
Proof.
  assert (H : "id-0" <> "") by discriminate.
  exact (conj H (update_keeps_units demo "id-0" (Json (JObj resize))
                   stocked H)).
Defined.

(** ** A request that is turned down has no effect *)



(** ** Get-all lists the store *)



(** A corrupt file that is not named [*.json] does not disturb Get-all. *)
Example get_all_skips_other_names :
  files annotated !! "notes.txt" = Some Corrupt
  /\ field (fst (get_all_trades demo annotated)) "count" = Some (JInt 1).
Proof. split; vm_compute; reflexivity. Qed.

(** ** What the views keep true of the store *)











(** The errands leave two records, the updated one and the one created
    under the client's own identifier. *)
Example errands_leave_two :
  field (fst (get_all_trades demo (snd (session demo errands boot)))) "count"
    = Some (JInt 2)
  /\ status (fst (get_trade demo "mine" (snd (session demo errands boot))))
     = 200
  /\ map status (fst (session demo errands boot))
     = [201; 200; 200; 404; 201; 500; 200].
Proof. repeat split; vm_compute; reflexivity. Qed.

(** ** When a write is accepted *)


(** Values are not validated: a negative quantity and a side that is
    neither BUY nor SELL are accepted. *)
Example create_accepts_any_values :
  status (fst (create_trade demo
                 (Json (JObj (<["quantity" := JInt (-100)]>
                                (<["side" := JStr "INVALID"]> aapl))))
                 boot)) = 201.
Proof. vm_compute. reflexivity. Qed.



